(** * The downloads organizer of [scripts/organize_downloads.py]

    A shallow embedding of the script's two functions,
    [get_target_folder] (the classifier) and [organize_downloads] (the
    loop that creates the category folders and moves the files), and
    the properties of them that the specification of the repository
    states.

    Modelling choices, all of them visible in the definitions below:
    - a Python [str] is a Rocq [string]: file names are byte strings and
      [str.lower] acts on the letters [A]..[Z] only;
    - a [pathlib.Path] is the list of its components below the root;
    - [Path.suffix] is the one of Python 3.11, the oldest version the
      script accepts in its header;
    - the file system is a finite tree of files and directories (no
      symbolic links, no permissions); what the platform decides, the
      order and the failures of [os.listdir] and the failures of
      [shutil.move], enters [organize_downloads] as two parameters. *)

From Stdlib Require Import String Ascii List NArith.
From stdpp Require Import gmap strings list fin_maps.

Open Scope string_scope.

(** ** Python strings *)

Module PyStr.

(** [c.lower()] for one ASCII character. *)
Definition lower_ascii (c : ascii) : ascii :=
  let n := N_of_ascii c in
  if ((65 <=? n) && (n <=? 90))%N then ascii_of_N (n + 32) else c.

(** [s.lower()] *)
Fixpoint lower (s : string) : string :=
  match s with
  | EmptyString => EmptyString
  | String c s' => String (lower_ascii c) (lower s')
  end.

(** [needle in hay] *)
Fixpoint contains (needle hay : string) : bool :=
  String.prefix needle hay
  || match hay with
     | EmptyString => false
     | String _ hay' => contains needle hay'
     end.

(** [s.rfind(c)], with [None] for Python's [-1]. *)
Fixpoint rfind (c : ascii) (s : string) : option nat :=
  match s with
  | EmptyString => None
  | String a s' =>
      match rfind c s' with
      | Some i => Some (S i)
      | None => if Ascii.eqb a c then Some 0 else None
      end
  end.

(** [s[i:]] *)
Fixpoint drop (i : nat) (s : string) : string :=
  match i, s with
  | O, _ => s
  | S i', String _ s' => drop i' s'
  | S _, EmptyString => EmptyString
  end.

(** [s.lstrip(c)] and [s.rstrip(c)] for a one-character [c]. *)
Fixpoint lstrip (c : ascii) (s : string) : string :=
  match s with
  | EmptyString => EmptyString
  | String a s' => if Ascii.eqb a c then lstrip c s' else s
  end.

Fixpoint rstrip (c : ascii) (s : string) : string :=
  match s with
  | EmptyString => EmptyString
  | String a s' =>
      match rstrip c s' with
      | EmptyString => if Ascii.eqb a c then EmptyString else String a EmptyString
      | r => String a r
      end
  end.

(** [s.strip(c)] *)
Definition strip (c : ascii) (s : string) : string := rstrip c (lstrip c s).

(** [a] occurs in [b] as a contiguous block. *)
Definition substring_of (a b : string) : Prop :=
  ∃ pre post, b = pre +:+ a +:+ post.

End PyStr.

(** ** Paths *)

(** A path is the list of its components; [p / c] appends one. *)
Abbreviation Path := (list string).

Definition path_div (p : Path) (c : string) : Path := p ++ [c].
Infix "/:" := path_div (at level 40, left associativity).

(** [p.name]: the final component, [''] when there is none. *)
Definition path_name (p : Path) : string := List.last p "".

(** [p.suffix] (pathlib of Python 3.11):
    [i = name.rfind('.')]; [name[i:]] if [0 < i < len(name) - 1], else ['']. *)
Definition path_suffix (p : Path) : string :=
  let name := path_name p in
  match PyStr.rfind "." name with
  | Some i =>
      if ((0 <? i) && (i <? String.length name - 1))%nat
      then PyStr.drop i name
      else ""
  | None => ""
  end.

(** [str(p)] for an absolute POSIX path. *)
Definition path_str (p : Path) : string :=
  match p with
  | [] => "/"
  | _ => String.concat "" (map (λ c, "/" +:+ c) p)
  end.

(** ** The classifier *)

(** The rule tables.  [KEYWORD_FOLDERS] is iterated with [.items()], so
    its declaration order matters and it is a list of pairs;
    [CATEGORY_MAP] is only looked up, so it is a finite map. *)
Definition KEYWORD_FOLDERS : list (string * string) :=
  [ ("invoice", "Invoices");
    ("receipt", "Invoices");
    ("fatura", "Invoices");
    ("anki", "Anki");
    ("course", "Courses");
    ("blueprint", "Courses");
    ("ai", "AI");
    ("langgraph", "AI");
    ("agent", "AI");
    ("prompt", "AI");
    ("filmmaking", "Media Projects");
    ("presentation", "Presentations") ].

Definition CATEGORY_MAP : gmap string string :=
  list_to_map
  [ ("pdf", "PDFs");
    ("pptx", "Presentations");
    ("mp4", "Videos");
    ("m4a", "Audio");
    ("png", "Images");
    ("jpg", "Images");
    ("jpeg", "Images");
    ("webp", "Images");
    ("heic", "Images");
    ("dmg", "Installers");
    ("zip", "Archives");
    ("rar", "Archives");
    ("csv", "Data");
    ("xlsx", "Data");
    ("json", "Data");
    ("srt", "Subtitles");
    ("ics", "Calendars");
    ("ipynb", "Notebooks");
    ("tsx", "Code");
    ("html", "Web");
    ("txt", "Text") ].

(** [DOWNLOADS_DIR = Path.home() / "Downloads"] *)
Definition DOWNLOADS_DIR (home : Path) : Path := home /: "Downloads".

(** [file.name.lower()] and [file.suffix.lower().strip(".")] *)
Definition lower_name (file : Path) : string := PyStr.lower (path_name file).
Definition ext (file : Path) : string :=
  PyStr.strip "." (PyStr.lower (path_suffix file)).

(** The [for keyword, folder in ....items()] loop of [get_target_folder]:
    the folder of the first rule whose keyword is in [name]. *)
Fixpoint scan_keywords (rules : list (string * string)) (name : string)
  : option string :=
  match rules with
  | [] => None
  | (keyword, folder) :: rules' =>
      if PyStr.contains keyword name then Some folder
      else scan_keywords rules' name
  end.

(** [get_target_folder] over arbitrary rule tables. *)
Definition classify (keyword_folders : list (string * string))
    (category_map : gmap string string) (downloads_dir : Path) (file : Path)
  : Path :=
  match scan_keywords keyword_folders (lower_name file) with
  | Some folder => downloads_dir /: folder
  | None =>
      match category_map !! ext file with
      | Some folder => downloads_dir /: folder
      | None => downloads_dir /: "Misc"
      end
  end.

(** [get_target_folder(file)] with the script's tables. *)
Definition get_target_folder (home : Path) (file : Path) : Path :=
  classify KEYWORD_FOLDERS CATEGORY_MAP (DOWNLOADS_DIR home) file.

(** No rule declared before position [i] has its keyword in [name]. *)
Definition none_before (rules : list (string * string)) (name : string)
    (i : nat) : Prop :=
  Forall (λ rule, PyStr.contains rule.1 name = false) (take i rules).

(** A rule [(keyword, folder)] matches a file. *)
Definition rule_matches (file : Path) (rule : string * string) : bool :=
  PyStr.contains rule.1 (lower_name file).

(** ** The file system *)

(** A file system is the tree below the root directory. *)
#[warnings="-register-all"]
Inductive node :=
  | File (data : string)
  | Dir (entries : gmap string node).

(** The node a path leads to, if any. *)
Fixpoint fs_lookup (p : Path) (n : node) : option node :=
  match p with
  | [] => Some n
  | c :: p' =>
      match n with
      | Dir es =>
          match es !! c with
          | Some child => fs_lookup p' child
          | None => None
          end
      | File _ => None
      end
  end.

(** Bind [v] at [p]; nothing happens unless the parent of [p] is a
    directory. *)
Fixpoint fs_insert (p : Path) (v : node) (n : node) : node :=
  match p with
  | [] => v
  | c :: p' =>
      match n with
      | Dir es =>
          match p' with
          | [] => Dir (<[c := v]> es)
          | _ =>
              match es !! c with
              | Some child => Dir (<[c := fs_insert p' v child]> es)
              | None => n
              end
          end
      | File _ => n
      end
  end.

(** Remove the entry at [p]. *)
Fixpoint fs_delete (p : Path) (n : node) : node :=
  match p with
  | [] => n
  | c :: p' =>
      match n with
      | Dir es =>
          match p' with
          | [] => Dir (delete c es)
          | _ =>
              match es !! c with
              | Some child => Dir (<[c := fs_delete p' child]> es)
              | None => n
              end
          end
      | File _ => n
      end
  end.

(** [p.is_file()], [p.is_dir()] and [p.exists()] *)
Definition is_file (fs : node) (p : Path) : bool :=
  match fs_lookup p fs with Some (File _) => true | _ => false end.

Definition is_dir (fs : node) (p : Path) : bool :=
  match fs_lookup p fs with Some (Dir _) => true | _ => false end.

Definition path_exists (fs : node) (p : Path) : bool :=
  match fs_lookup p fs with Some _ => true | None => false end.

(** ** Exceptions *)

(** A raised exception: its class and its [str()]. *)
Record exn := Exception { exn_class : string; exn_str : string }.

Definition FileNotFoundError (p : Path) : exn :=
  Exception "FileNotFoundError"
    ("[Errno 2] No such file or directory: '" +:+ path_str p +:+ "'").
Definition FileExistsError (p : Path) : exn :=
  Exception "FileExistsError"
    ("[Errno 17] File exists: '" +:+ path_str p +:+ "'").
Definition NotADirectoryError (p : Path) : exn :=
  Exception "NotADirectoryError"
    ("[Errno 20] Not a directory: '" +:+ path_str p +:+ "'").
Definition PermissionError (p : Path) : exn :=
  Exception "PermissionError"
    ("[Errno 13] Permission denied: '" +:+ path_str p +:+ "'").

(** What a call does: it returns a value or raises. *)
Inductive outcome (A : Type) :=
  | Return (a : A)
  | Raise (e : exn).
Arguments Return {A} a.
Arguments Raise {A} e.

(** [p.mkdir(exist_ok=True)]: [os.mkdir(p)], whose error is swallowed
    when [p] is a directory already. *)
Definition mkdir_exist_ok (fs : node) (p : Path) : outcome node :=
  match fs_lookup p fs with
  | Some (Dir _) => Return fs
  | Some (File _) => Raise (FileExistsError p)
  | None =>
      match fs_lookup (removelast p) fs with
      | Some (Dir _) => Return (fs_insert p (Dir ∅) fs)
      | Some (File _) => Raise (NotADirectoryError p)
      | None => Raise (FileNotFoundError p)
      end
  end.

(** [os.listdir(p)] on the tree.  The order of the names is the
    platform's; here it is the order of the map. *)
Definition listdir (fs : node) (p : Path) : outcome (list string) :=
  match fs_lookup p fs with
  | Some (Dir es) => Return (map fst (map_to_list es))
  | Some (File _) => Raise (NotADirectoryError p)
  | None => Raise (FileNotFoundError p)
  end.

(** What can go wrong inside [shutil.move(src, dst)].  The library first
    tries [os.rename]; when that fails with an [OSError] it copies [src] to
    [dst] and then unlinks [src]. *)
Inductive move_fault :=
  | RenameAndCopyFail (e : exn)   (* nothing was written *)
  | UnlinkFails (e : exn).        (* the copy is at [dst], [src] is still there *)

(** [shutil.move] of a regular file on the tree, with the faults that
    [faults] injects for a source path. *)
Definition shutil_move_tree (faults : Path → option move_fault)
    (fs : node) (src dst : Path) : node * option exn :=
  match fs_lookup src fs with
  | None => (fs, Some (FileNotFoundError src))
  | Some n =>
      match faults src with
      | None => (fs_insert dst n (fs_delete src fs), None)
      | Some (RenameAndCopyFail e) => (fs, Some e)
      | Some (UnlinkFails e) => (fs_insert dst n fs, Some e)
      end
  end.

(** ** The organizer *)

(** The lines the script prints. *)
Inductive line :=
  | Organizing (dir : Path)
  | FileAlreadyExists (target_path : Path)
  | Moved (name folder : string)
  | ErrorMoving (name : string) (e : exn).

(** The text handed to [print] for each of them. *)
Definition render (l : line) : string :=
  match l with
  | Organizing dir =>
      "[bold yellow]Organizing files in " +:+ path_str dir
        +:+ "...[/bold yellow]"
  | FileAlreadyExists target_path =>
      "[red]File already exists:[/red] " +:+ path_str target_path
  | Moved name folder =>
      "[green]Moved:[/green] " +:+ name +:+ " -> " +:+ folder
  | ErrorMoving name e =>
      "[red]Error moving " +:+ name +:+ ":[/red] " +:+ exn_str e
  end.


(** The world the script acts on: the disk and the terminal. *)
Record state := State { fs : node; out : list line }.

Definition say (l : line) (st : state) : state :=
  {| fs := fs st; out := out st ++ [l] |}.

Section Organizer.

(** [os.listdir], which [Path.iterdir] calls once, before the first
    iteration, and [shutil.move]: any behaviour. A move returns the disk
    it leaves and the exception it raised, if any. *)
Variable os_listdir : node → Path → outcome (list string).
Variable shutil_move : node → Path → Path → node * option exn.

Variable home : Path.

(** The body of the [for] loop, for the entry [name] of the listing. *)
Definition process (st : state) (name : string) : outcome state :=
  let file := DOWNLOADS_DIR home /: name in
  if is_file (fs st) file then
    let target_folder := get_target_folder home file in
    match mkdir_exist_ok (fs st) target_folder with
    | Raise e => Raise e
    | Return fs1 =>
        let target_path := target_folder /: path_name file in
        if path_exists fs1 target_path then
          Return (say (FileAlreadyExists target_path) (State fs1 (out st)))
        else
          match shutil_move fs1 file target_path with
          | (fs2, None) =>
              Return (say (Moved (path_name file) (path_name target_folder))
                          (State fs2 (out st)))
          | (fs2, Some e) =>
              Return (say (ErrorMoving (path_name file) e)
                          (State fs2 (out st)))
          end
    end
  else Return st.

(** The [for] loop: the state it ends in and the exception that ended
    it, if one did. *)
Fixpoint loop (names : list string) (st : state) : state * option exn :=
  match names with
  | [] => (st, None)
  | name :: rest =>
      match process st name with
      | Return st' => loop rest st'
      | Raise e => (st, Some e)
      end
  end.

(** [organize_downloads()], started on the disk [fs0] with an empty
    terminal. *)
Definition organize_downloads (fs0 : node) : state * option exn :=
  let st := say (Organizing (DOWNLOADS_DIR home)) (State fs0 []) in
  match os_listdir fs0 (DOWNLOADS_DIR home) with
  | Raise e => (st, Some e)
  | Return names => loop names st
  end.

End Organizer.

(** ** Sample disks *)

Definition home0 : Path := ["Users"; "me"].

(** A disk whose only content is [/Users/me/Downloads]. *)
Definition disk_with (downloads : gmap string node) : node :=
  Dir {[ "Users" := Dir {[ "me" := Dir {[ "Downloads" := Dir downloads ]} ]} ]}.

(** Three files to sort, one of which is in [Invoices] already, next to
    two folders of an earlier run. *)
Definition disk_three : node :=
  disk_with (list_to_map
    [ ("invoice_march.pdf", File "new invoice");
      ("photo.png", File "pixels");
      ("notes.xyz", File "notes");
      ("Invoices", Dir {[ "invoice_march.pdf" := File "old invoice" ]});
      ("Images", Dir ∅) ]).

(** A regular file that has the name of a category folder. *)
Definition disk_file_named_ai : node :=
  disk_with (list_to_map [ ("AI", File "not a folder"); ("photo.png", File "pixels") ]).

(** No [Downloads] directory at all. *)
Definition disk_without_downloads : node :=
  Dir {[ "Users" := Dir {[ "me" := Dir ∅ ]} ]}.

Definition no_faults : Path → option move_fault := λ _, None.

(** [photo.png] cannot be renamed nor unlinked, as when the directory it
    is in is read-only or the file is locked: it is copied to its target,
    and the removal of the source raises. *)
Definition photo_unlink_fails : Path → option move_fault :=
  λ src, if decide (path_name src = "photo.png")
         then Some (UnlinkFails (PermissionError src)) else None.


(** Nothing but folders in [Downloads]. *)
Definition disk_only_folders : node :=
  disk_with (list_to_map
    [ ("Invoices", Dir {[ "invoice_march.pdf" := File "old invoice" ]});
      ("Images", Dir ∅) ]).

(** * Properties *)

Example classify_invoice :
  get_target_folder ["Users"; "me"] ["Users"; "me"; "Downloads"; "Invoice_March.PDF"]
  = ["Users"; "me"; "Downloads"; "Invoices"].
Proof. vm_compute. reflexivity. Qed.

Example classify_photo :
  get_target_folder ["Users"; "me"] ["Users"; "me"; "Downloads"; "photo.PNG"]
  = ["Users"; "me"; "Downloads"; "Images"].
Proof. vm_compute. reflexivity. Qed.

Example classify_misc :
  get_target_folder ["Users"; "me"] ["Users"; "me"; "Downloads"; "notes.xyz"]
  = ["Users"; "me"; "Downloads"; "Misc"].
Proof. vm_compute. reflexivity. Qed.

Example suffix_examples :
  path_suffix ["a.tar.gz"] = ".gz" ∧ path_suffix [".bashrc"] = ""
  ∧ path_suffix ["file."] = "" ∧ path_suffix ["README"] = ""
  ∧ ext ["x.JPeG"] = "jpeg".
Proof. vm_compute. done. Qed.

(** ** Strings *)

Module PyStrFacts.
Import PyStr.

#[local] Arguments String.append : simpl nomatch.

Lemma app_nil_r (s : string) : s +:+ "" = s.
Proof. induction s as [|a s IH]; simpl; [done | by rewrite IH]. Qed.

Lemma app_assoc (a b c : string) : (a +:+ b) +:+ c = a +:+ b +:+ c.
Proof. induction a as [|x a IH]; simpl; [done | by rewrite IH]. Qed.

Lemma prefix_spec (k s : string) :
  String.prefix k s = true ↔ ∃ post, s = k +:+ post.
Proof.
  revert s. induction k as [|a k IH]; intros s.
  - destruct s; simpl; (split; [intros _; by eexists | done]).
  - destruct s as [|b s]; simpl; [split; [done | by intros [? ?]] |].
    destruct (ascii_dec a b) as [->|Hne].
    + rewrite IH. split; intros [post H]; exists post; congruence.
    + split; [done | intros [post H]; congruence].
Qed.

Lemma contains_spec (k s : string) :
  contains k s = true ↔ substring_of k s.
Proof.
  unfold substring_of. induction s as [|b s IH]; cbn [contains].
  - rewrite orb_false_r, prefix_spec. split.
    + intros [post H]. by exists "", post.
    + intros [[|x pre] [post H]]; [by exists post | done].
  - rewrite orb_true_iff, IH, prefix_spec. split.
    + intros [[post H] | (pre & post & H)].
      * by exists "", post.
      * exists (String b pre), post. simpl. by rewrite H.
    + intros ([|x pre] & post & H); simpl in H.
      * left. by exists post.
      * right. exists pre, post. congruence.
Qed.

Lemma substring_of_refl (s : string) : substring_of s s.
Proof. exists "", "". simpl. by rewrite app_nil_r. Qed.

Lemma substring_of_trans (a b c : string) :
  substring_of a b → substring_of b c → substring_of a c.
Proof.
  intros (p1 & q1 & ->) (p2 & q2 & ->).
  exists (p2 +:+ p1), (q1 +:+ q2). by rewrite !app_assoc.
Qed.

Lemma lower_app (a b : string) : lower (a +:+ b) = lower a +:+ lower b.
Proof. induction a as [|x a IH]; simpl; [done | by rewrite IH]. Qed.

Lemma substring_of_lower (a b : string) :
  substring_of a b → substring_of (lower a) (lower b).
Proof.
  intros (pre & post & ->). exists (lower pre), (lower post).
  by rewrite !lower_app.
Qed.

Lemma drop_tail (i : nat) (s : string) : ∃ pre, s = pre +:+ drop i s.
Proof.
  revert s. induction i as [|i IH]; intros s.
  - by exists "".
  - destruct s as [|a s]; simpl; [by exists "" |].
    destruct (IH s) as [pre H]. exists (String a pre). simpl. by rewrite <- H.
Qed.

Lemma lstrip_tail (c : ascii) (s : string) : ∃ pre, s = pre +:+ lstrip c s.
Proof.
  induction s as [|a s [pre IH]]; simpl; [by exists "" |].
  destruct (Ascii.eqb a c); [| by exists ""].
  exists (String a pre). simpl. by rewrite <- IH.
Qed.

Lemma rstrip_head (c : ascii) (s : string) : ∃ post, s = rstrip c s +:+ post.
Proof.
  induction s as [|a s [post IH]]; simpl; [by exists "" |].
  destruct (rstrip c s) as [|b r] eqn:Hr.
  - destruct (Ascii.eqb a c).
    + exists (String a s). done.
    + exists post. simpl in *. by rewrite <- IH.
  - exists post. simpl in *. by rewrite <- IH.
Qed.

Lemma strip_substring (c : ascii) (s : string) : substring_of (strip c s) s.
Proof.
  unfold strip. destruct (lstrip_tail c s) as [pre Hl].
  destruct (rstrip_head c (lstrip c s)) as [post Hr].
  exists pre, post. by rewrite <- Hr.
Qed.

End PyStrFacts.

(** ** Paths *)

Lemma path_name_div (p : Path) (c : string) : path_name (p /: c) = c.
Proof. apply last_last. Qed.

Lemma path_suffix_substring (p : Path) :
  PyStr.substring_of (path_suffix p) (path_name p).
Proof.
  unfold path_suffix. destruct (PyStr.rfind _ _) as [i|].
  - destruct (_ && _).
    + destruct (PyStrFacts.drop_tail i (path_name p)) as [pre H].
      exists pre, "". by rewrite PyStrFacts.app_nil_r.
    + by exists "", (path_name p).
  - by exists "", (path_name p).
Qed.

(** The extension is a piece of the lower-cased name. *)
Lemma ext_substring (file : Path) :
  PyStr.substring_of (ext file) (lower_name file).
Proof.
  unfold ext, lower_name.
  eapply PyStrFacts.substring_of_trans; [apply PyStrFacts.strip_substring |].
  apply PyStrFacts.substring_of_lower, path_suffix_substring.
Qed.

(** ** The keyword scan *)

Lemma scan_keywords_None (rules : list (string * string)) (name : string) :
  scan_keywords rules name = None ↔
  Forall (λ rule, PyStr.contains rule.1 name = false) rules.
Proof.
  induction rules as [|[k f] rules IH]; simpl.
  - split; [by constructor | done].
  - rewrite Forall_cons. simpl. destruct (PyStr.contains k name).
    + split; [done | by intros [? _]].
    + rewrite IH. tauto.
Qed.

(** The scan returns the folder of the earliest rule that matches. *)
Lemma scan_keywords_Some (rules : list (string * string)) (name folder : string) :
  scan_keywords rules name = Some folder ↔
  ∃ i keyword, rules !! i = Some (keyword, folder)
    ∧ PyStr.contains keyword name = true ∧ none_before rules name i.
Proof.
  unfold none_before. revert folder.
  induction rules as [|[k f] rules IH]; intros folder; simpl.
  - split; [done | by intros (i & kw & H & _)].
  - destruct (PyStr.contains k name) eqn:Hk.
    + split.
      * intros [= <-]. exists 0, k. repeat split; [done | by constructor].
      * intros ([|i] & kw & Hi & Hkw & Hfirst); simpl in *; [congruence |].
        apply Forall_cons in Hfirst as [Hfirst _]. simpl in Hfirst. congruence.
    + rewrite IH. split.
      * intros (i & kw & Hi & Hkw & Hfirst). exists (S i), kw.
        repeat split; [done .. |]. simpl. by constructor.
      * intros ([|i] & kw & Hi & Hkw & Hfirst); simpl in *; [congruence |].
        apply Forall_cons in Hfirst as [_ Hfirst]. by exists i, kw.
Qed.

Lemma none_before_lookup (rules : list (string * string)) (name : string)
    (i j : nat) (rule : string * string) :
  none_before rules name i → (j < i)%nat → rules !! j = Some rule →
  PyStr.contains rule.1 name = false.
Proof.
  unfold none_before. intros Hnone Hlt Hj.
  rewrite Forall_lookup in Hnone. apply (Hnone j rule).
  by rewrite lookup_take_lt.
Qed.

(** A rule that matches makes the scan succeed, at that rule or before. *)
Lemma scan_keywords_match (rules : list (string * string)) (name : string)
    (i : nat) (rule : string * string) :
  rules !! i = Some rule → PyStr.contains rule.1 name = true →
  ∃ (m : nat) rule', (m ≤ i)%nat ∧ rules !! m = Some rule'
    ∧ PyStr.contains rule'.1 name = true ∧ none_before rules name m
    ∧ scan_keywords rules name = Some rule'.2.
Proof.
  intros Hi Hrule.
  destruct (scan_keywords rules name) as [folder|] eqn:Hscan.
  - pose proof Hscan as (m & kw & Hm & Hkw & Hfirst)%scan_keywords_Some.
    exists m, (kw, folder). repeat split; try done.
    destruct (decide (m ≤ i)%nat) as [|Hgt]; [done |].
    pose proof (none_before_lookup _ _ _ i rule Hfirst ltac:(lia) Hi).
    congruence.
  - rewrite scan_keywords_None, Forall_lookup in Hscan.
    specialize (Hscan i rule Hi). simpl in Hscan. congruence.
Qed.

(** ** The classifier, over any rule tables *)

Section Classify.

Variable keyword_folders : list (string * string).
Variable category_map : gmap string string.
Variable downloads_dir : Path.

Lemma classify_keyword (file : Path) (folder : string) :
  scan_keywords keyword_folders (lower_name file) = Some folder →
  classify keyword_folders category_map downloads_dir file
  = downloads_dir /: folder.
Proof. unfold classify. by intros ->. Qed.

Lemma classify_extension (file : Path) :
  scan_keywords keyword_folders (lower_name file) = None →
  classify keyword_folders category_map downloads_dir file
  = downloads_dir /: default "Misc" (category_map !! ext file).
Proof. unfold classify. intros ->. by destruct (_ !! _). Qed.

End Classify.

(** ** The classifier with the script's tables *)

(** C1. A file whose lower-cased name contains a configured keyword goes
    to the folder of a keyword rule that matches it, whatever the
    extension mapping holds: that mapping is not consulted. *)
Theorem keyword_match_decides (home file : Path) (rule : string * string) :
  rule ∈ KEYWORD_FOLDERS → rule_matches file rule = true →
  ∃ rule', rule' ∈ KEYWORD_FOLDERS ∧ rule_matches file rule' = true
    ∧ get_target_folder home file = DOWNLOADS_DIR home /: rule'.2
    ∧ ∀ category_map,
        classify KEYWORD_FOLDERS category_map (DOWNLOADS_DIR home) file
        = DOWNLOADS_DIR home /: rule'.2.
Proof.
  intros [i Hi]%list_elem_of_lookup_1 Hmatch.
  destruct (scan_keywords_match _ _ _ _ Hi Hmatch)
    as (m & rule' & _ & Hm & Hmatch' & _ & Hscan).
  exists rule'. split; [by eapply list_elem_of_lookup_2 |].
  split; [done |]. split; [| intros category_map]; by apply classify_keyword.
Qed.

Lemma keyword_match_decides_witness :
  ∃ rule', rule' ∈ KEYWORD_FOLDERS
    ∧ rule_matches ["Users"; "me"; "Downloads"; "Invoice_March.PDF"] rule' = true
    ∧ get_target_folder ["Users"; "me"]
        ["Users"; "me"; "Downloads"; "Invoice_March.PDF"]
      = DOWNLOADS_DIR ["Users"; "me"] /: rule'.2
    ∧ ∀ category_map,
        classify KEYWORD_FOLDERS category_map (DOWNLOADS_DIR ["Users"; "me"])
          ["Users"; "me"; "Downloads"; "Invoice_March.PDF"]
        = DOWNLOADS_DIR ["Users"; "me"] /: rule'.2.
Proof.
  apply (keyword_match_decides ["Users"; "me"]
           ["Users"; "me"; "Downloads"; "Invoice_March.PDF"]
           ("invoice", "Invoices")).
  - apply list_elem_of_here.
  - vm_compute. reflexivity.
Defined.

(** C2. When two configured keywords occur in the lower-cased name, the
    folder returned is the one of the earliest declared rule that matches:
    a rule at or before the earlier of the two, with no match before it.
    If nothing before the earlier of the two matches, it is that one's. *)
Theorem first_declared_keyword_wins (home file : Path) (i j : nat)
    (ri rj : string * string) :
  (i < j)%nat →
  KEYWORD_FOLDERS !! i = Some ri → KEYWORD_FOLDERS !! j = Some rj →
  rule_matches file ri = true → rule_matches file rj = true →
  (∃ (m : nat) rm, (m ≤ i)%nat ∧ KEYWORD_FOLDERS !! m = Some rm
     ∧ rule_matches file rm = true
     ∧ none_before KEYWORD_FOLDERS (lower_name file) m
     ∧ get_target_folder home file = DOWNLOADS_DIR home /: rm.2)
  ∧ (none_before KEYWORD_FOLDERS (lower_name file) i →
     get_target_folder home file = DOWNLOADS_DIR home /: ri.2).
Proof.
  intros _ Hi _ Hmi _. split.
  - destruct (scan_keywords_match _ _ _ _ Hi Hmi)
      as (m & rm & Hle & Hm & Hmm & Hnone & Hscan).
    exists m, rm. repeat split; try done. by apply classify_keyword.
  - intros Hnone. apply classify_keyword, scan_keywords_Some.
    exists i, ri.1. by destruct ri.
Qed.

Lemma first_declared_keyword_wins_witness :
  get_target_folder ["Users"; "me"]
    ["Users"; "me"; "Downloads"; "course_invoice.txt"]
  = ["Users"; "me"; "Downloads"; "Invoices"].
Proof.
  refine (proj2 (first_declared_keyword_wins ["Users"; "me"]
           ["Users"; "me"; "Downloads"; "course_invoice.txt"] 0 4
           ("invoice", "Invoices") ("course", "Courses") _ _ _ _ _) _).
  - lia.
  - reflexivity.
  - reflexivity.
  - vm_compute. reflexivity.
  - vm_compute. reflexivity.
  - constructor.
Defined.

(** C8. With no keyword in the lower-cased name and the extension a key
    of the extension mapping, the folder is the one mapped to it. *)
Theorem extension_decides_without_keyword (home file : Path) (folder : string) :
  Forall (λ rule, rule_matches file rule = false) KEYWORD_FOLDERS →
  CATEGORY_MAP !! ext file = Some folder →
  get_target_folder home file = DOWNLOADS_DIR home /: folder.
Proof.
  intros Hnone Hext. unfold get_target_folder.
  rewrite classify_extension; [by rewrite Hext |].
  by apply scan_keywords_None.
Qed.

Lemma extension_decides_without_keyword_witness :
  get_target_folder ["Users"; "me"] ["Users"; "me"; "Downloads"; "photo.PNG"]
  = DOWNLOADS_DIR ["Users"; "me"] /: "Images".
Proof.
  apply (extension_decides_without_keyword ["Users"; "me"]
           ["Users"; "me"; "Downloads"; "photo.PNG"] "Images").
  - repeat constructor.
  - vm_compute. reflexivity.
Defined.

(** C9. With no keyword in the lower-cased name and the extension not in
    the extension mapping, the folder is ["Misc"]. *)
Theorem misc_is_the_fallback (home file : Path) :
  Forall (λ rule, rule_matches file rule = false) KEYWORD_FOLDERS →
  CATEGORY_MAP !! ext file = None →
  get_target_folder home file = DOWNLOADS_DIR home /: "Misc".
Proof.
  intros Hnone Hext. unfold get_target_folder.
  rewrite classify_extension; [by rewrite Hext |].
  by apply scan_keywords_None.
Qed.

Lemma misc_is_the_fallback_witness :
  get_target_folder ["Users"; "me"] ["Users"; "me"; "Downloads"; "notes.xyz"]
  = DOWNLOADS_DIR ["Users"; "me"] /: "Misc".
Proof.
  apply (misc_is_the_fallback ["Users"; "me"]
           ["Users"; "me"; "Downloads"; "notes.xyz"]).
  - repeat constructor.
  - vm_compute. reflexivity.
Defined.

(** C10. The keywords are looked for in the whole lower-cased name, the
    extension included: a rule whose keyword occurs in the extension
    matches the file, and when no rule declared before it matches, the
    file goes to that rule's folder even if the extension mapping has an
    entry for the extension.  So it is for [notes.ai]. *)
Theorem keyword_inside_extension (home file : Path) (i : nat)
    (rule : string * string) :
  KEYWORD_FOLDERS !! i = Some rule →
  PyStr.contains rule.1 (ext file) = true →
  rule_matches file rule = true
  ∧ (none_before KEYWORD_FOLDERS (lower_name file) i →
     get_target_folder home file = DOWNLOADS_DIR home /: rule.2
     ∧ ∀ category_map,
         classify KEYWORD_FOLDERS category_map (DOWNLOADS_DIR home) file
         = DOWNLOADS_DIR home /: rule.2).
Proof.
  intros Hi Hext.
  assert (rule_matches file rule = true) as Hmatch.
  { apply PyStrFacts.contains_spec.
    eapply PyStrFacts.substring_of_trans; [| apply ext_substring].
    by apply PyStrFacts.contains_spec. }
  split; [done |]. intros Hnone.
  assert (scan_keywords KEYWORD_FOLDERS (lower_name file) = Some rule.2).
  { apply scan_keywords_Some. exists i, rule.1. by destruct rule. }
  split; [| intros category_map]; by apply classify_keyword.
Qed.

Lemma keyword_inside_extension_witness :
  rule_matches ["Users"; "me"; "Downloads"; "notes.ai"] ("ai", "AI") = true
  ∧ get_target_folder ["Users"; "me"] ["Users"; "me"; "Downloads"; "notes.ai"]
    = ["Users"; "me"; "Downloads"; "AI"].
Proof.
  destruct (keyword_inside_extension ["Users"; "me"]
              ["Users"; "me"; "Downloads"; "notes.ai"] 6 ("ai", "AI"))
    as [Hmatch Hfolder].
  - reflexivity.
  - vm_compute. reflexivity.
  - split; [exact Hmatch |]. apply Hfolder. repeat constructor.
Defined.

(** ** The file system *)

Lemma fs_lookup_app (p q : Path) (fs : node) :
  fs_lookup (p ++ q) fs = fs_lookup p fs ≫= fs_lookup q.
Proof.
  revert fs. induction p as [|c p IH]; intros fs; simpl; [done |].
  destruct fs as [|es]; [done |]. destruct (es !! c); [apply IH | done].
Qed.

(** What exists lies in a directory. *)
Lemma fs_lookup_div_Some (p : Path) (c : string) (fs n : node) :
  fs_lookup (p /: c) fs = Some n →
  ∃ es, fs_lookup p fs = Some (Dir es) ∧ es !! c = Some n.
Proof.
  unfold path_div. rewrite fs_lookup_app.
  destruct (fs_lookup p fs) as [[|es]|]; simpl; [done | | done].
  intros H. exists es. split; [done |]. by destruct (es !! c).
Qed.

Lemma fs_lookup_insert_ne (p q : Path) (v fs : node) :
  length q = length p → q ≠ p →
  fs_lookup q (fs_insert p v fs) = fs_lookup q fs.
Proof.
  revert q fs. induction p as [|c p IH]; intros [|d q] fs Hlen Hne;
    simpl in *; try done.
  destruct fs as [|es]; [done |]. destruct p as [|c' p].
  - destruct q; [| done]. simpl.
    rewrite lookup_insert_ne; [done | congruence].
  - destruct (es !! c) as [child|] eqn:Hc; [| done]. simpl.
    destruct (decide (c = d)) as [->|Hcd].
    + rewrite lookup_insert_eq, Hc. apply IH; [lia | congruence].
    + by rewrite lookup_insert_ne.
Qed.

(** [mkdir(exist_ok=True)] does nothing where something exists below
    the folder. *)
Lemma mkdir_exist_ok_parent (fs : node) (p : Path) (c : string) :
  path_exists fs (p /: c) = true → mkdir_exist_ok fs p = Return fs.
Proof.
  unfold path_exists, mkdir_exist_ok.
  destruct (fs_lookup (p /: c) fs) as [n|] eqn:Hn; [| done].
  apply fs_lookup_div_Some in Hn as (es & -> & _). done.
Qed.

(** It leaves alone every other path of the same depth. *)
Lemma mkdir_exist_ok_frame (fs fs1 : node) (p q : Path) :
  mkdir_exist_ok fs p = Return fs1 →
  length q = length p → is_Some (fs_lookup q fs) →
  fs_lookup q fs1 = fs_lookup q fs.
Proof.
  unfold mkdir_exist_ok. intros Hmk Hlen [n Hq].
  destruct (fs_lookup p fs) as [[|es]|] eqn:Hp; [done | congruence |].
  destruct (fs_lookup (removelast p) fs) as [[|es]|]; try done.
  injection Hmk as <-. apply fs_lookup_insert_ne; [done | congruence].
Qed.

Lemma listdir_raises (fs : node) (p : Path) :
  is_dir fs p = false ↔ ∃ e, listdir fs p = Raise e.
Proof.
  unfold is_dir, listdir. destruct (fs_lookup p fs) as [[|es]|]; split;
    try done; try (by intros [? ?]); by eexists.
Qed.

Lemma fs_lookup_insert_eq (p : Path) (c : string) (v fs : node) :
  is_dir fs p = true → fs_lookup (p /: c) (fs_insert (p /: c) v fs) = Some v.
Proof.
  unfold is_dir, path_div. revert fs.
  induction p as [|d p IH]; intros [data|es]; simpl; try done.
  - intros _. by rewrite lookup_insert_eq.
  - destruct (es !! d) as [child|] eqn:Hd; [| done]. intros Hdir.
    assert (∃ x rest, (p ++ [c])%list = x :: rest) as (x & rest & Hp)
      by (destruct p; simpl; eauto).
    rewrite Hp, lookup_insert_eq, <- Hp. by apply IH.
Qed.

Lemma fs_lookup_delete_eq (p : Path) (c : string) (fs : node) :
  fs_lookup (p /: c) (fs_delete (p /: c) fs) = None.
Proof.
  unfold path_div. revert fs.
  induction p as [|d p IH]; intros [data|es]; simpl; try done.
  - by rewrite lookup_delete_eq.
  - assert (∃ x rest, (p ++ [c])%list = x :: rest) as (x & rest & Hp)
      by (destruct p; simpl; eauto).
    destruct (es !! d) as [child|] eqn:Hd; rewrite Hp.
    + rewrite lookup_insert_eq, <- Hp. apply IH.
    + by rewrite Hd.
Qed.

Lemma fs_lookup_delete_ne (p q : Path) (fs : node) :
  length q = length p → q ≠ p →
  fs_lookup q (fs_delete p fs) = fs_lookup q fs.
Proof.
  revert q fs. induction p as [|c p IH]; intros [|d q] fs Hlen Hne;
    simpl in *; try done.
  destruct fs as [|es]; [done |]. destruct p as [|c' p].
  - destruct q; [| done]. simpl.
    rewrite lookup_delete_ne; [done | congruence].
  - destruct (es !! c) as [child|] eqn:Hc; [| done]. simpl.
    destruct (decide (c = d)) as [->|Hcd].
    + rewrite lookup_insert_eq, Hc. apply IH; [lia | congruence].
    + by rewrite lookup_insert_ne.
Qed.

(** Binding a path adds no shorter path. *)
Lemma fs_lookup_insert_shorter (p q : Path) (v fs : node) :
  length q < length p → fs_lookup q fs = None →
  fs_lookup q (fs_insert p v fs) = None.
Proof.
  revert q fs. induction p as [|c p IH]; intros [|d q] fs Hlen Hq;
    simpl in *; try done; try lia.
  destruct fs as [|es]; [done |]. destruct p as [|c' p]; [simpl in Hlen; lia |].
  destruct (es !! c) as [child|] eqn:Hc; [| done]. simpl.
  destruct (decide (c = d)) as [->|Hcd].
  - rewrite lookup_insert_eq. rewrite Hc in Hq. apply IH; [lia | done].
  - by rewrite lookup_insert_ne.
Qed.

Lemma mkdir_exist_ok_is_dir (fs fs1 : node) (p : Path) :
  mkdir_exist_ok fs p = Return fs1 → is_dir fs1 p = true.
Proof.
  unfold mkdir_exist_ok. intros Hmk.
  destruct (fs_lookup p fs) as [[|es]|] eqn:Hp.
  - done.
  - injection Hmk as <-. unfold is_dir. by rewrite Hp.
  - destruct p as [|c p] using rev_ind; [done |].
    rewrite removelast_last in Hmk.
    destruct (fs_lookup p fs) as [[|es]|] eqn:Hparent; try done.
    injection Hmk as <-. unfold is_dir.
    rewrite (fs_lookup_insert_eq p c); [done |]. unfold is_dir. by rewrite Hparent.
Qed.

(** Binding a path leaves alone what lies on another branch. *)
Lemma fs_lookup_insert_diverge (p q r : Path) (c d : string) (v fs : node) :
  c ≠ d →
  fs_lookup (p ++ c :: q) (fs_insert (p ++ d :: r) v fs)
  = fs_lookup (p ++ c :: q) fs.
Proof.
  intros Hne. revert fs. induction p as [|x p IH]; intros [data|es]; simpl;
    try done.
  - destruct r as [|y r]; simpl.
    + by rewrite lookup_insert_ne.
    + destruct (es !! d) as [child|]; [| done]. simpl.
      by rewrite lookup_insert_ne.
  - assert (∃ y rest, (p ++ d :: r)%list = y :: rest) as (y & rest & Hp)
      by (destruct p; simpl; eauto).
    rewrite Hp. destruct (es !! x) as [child|] eqn:Hx; [| by rewrite Hx].
    rewrite <- Hp. simpl. rewrite lookup_insert_eq. apply IH.
Qed.

(** ** The organizer *)

Lemma get_target_folder_div (home file : Path) :
  ∃ folder, get_target_folder home file = DOWNLOADS_DIR home /: folder.
Proof.
  unfold get_target_folder, classify.
  destruct (scan_keywords _ _); [by eexists |].
  destruct (_ !! _); by eexists.
Qed.

Section OrganizerFacts.

Variable os_listdir : node → Path → outcome (list string).
Variable shutil_move : node → Path → Path → node * option exn.
Variable home : Path.

Abbreviation process := (process shutil_move home).
Abbreviation loop := (loop shutil_move home).
Abbreviation organize_downloads :=
  (organize_downloads os_listdir shutil_move home).

(** The loop over a listing cut in two. *)
Lemma loop_app (before after : list string) (st : state) :
  loop (before ++ after) st =
  match loop before st with
  | (st1, None) => loop after st1
  | aborted => aborted
  end.
Proof.
  revert st. induction before as [|name before IH]; intros st; simpl; [done |].
  destruct (process st name); [apply IH | done].
Qed.





End OrganizerFacts.

(** ** The claims about the run *)

Example run_three :
  let r := organize_downloads listdir (shutil_move_tree no_faults) home0 disk_three in
  r.2 = None
  ∧ render <$> out r.1 =
    [ "[bold yellow]Organizing files in /Users/me/Downloads...[/bold yellow]";
      "[red]File already exists:[/red] /Users/me/Downloads/Invoices/invoice_march.pdf";
      "[green]Moved:[/green] notes.xyz -> Misc";
      "[green]Moved:[/green] photo.png -> Images" ]
  ∧ fs_lookup (DOWNLOADS_DIR home0 /: "Images" /: "photo.png") (fs r.1)
    = Some (File "pixels")
  ∧ fs_lookup (DOWNLOADS_DIR home0 /: "photo.png") (fs r.1) = None.
Proof. vm_compute. done. Qed.

(** A regular file named like a category folder stops the run: [mkdir]
    raises outside the [try]. *)
Example run_file_named_ai :
  let r := organize_downloads listdir (shutil_move_tree no_faults) home0
             disk_file_named_ai in
  r.2 = Some (FileExistsError (DOWNLOADS_DIR home0 /: "AI"))
  ∧ fs r.1 = disk_file_named_ai.
Proof. vm_compute. done. Qed.

(** C3. When the target path exists before the iteration for a regular
    file, the iteration moves nothing: the disk after it is the disk
    before it, so the file at the target and the source file are as they
    were, and the line printed names the existing target path. *)
Theorem existing_target_is_kept
    (shutil_move : node → Path → Path → node * option exn)
    (home : Path) (st : state) (name : string) :
  let file := DOWNLOADS_DIR home /: name in
  let target_path := get_target_folder home file /: name in
  is_file (fs st) file = true →
  path_exists (fs st) target_path = true →
  ∃ st', process shutil_move home st name = Return st'
    ∧ fs st' = fs st
    ∧ out st' = (out st ++ [FileAlreadyExists target_path])%list
    ∧ fs_lookup target_path (fs st') = fs_lookup target_path (fs st)
    ∧ fs_lookup file (fs st') = fs_lookup file (fs st).
Proof.
  cbv zeta. intros Hfile Hexists. unfold process.
  rewrite Hfile, path_name_div.
  rewrite (mkdir_exist_ok_parent _ _ _ Hexists), Hexists.
  by eexists.
Qed.

Lemma existing_target_is_kept_witness :
  ∃ st', process (shutil_move_tree no_faults) home0 (State disk_three [])
           "invoice_march.pdf" = Return st'
    ∧ fs st' = disk_three
    ∧ out st' = [FileAlreadyExists
                   (DOWNLOADS_DIR home0 /: "Invoices" /: "invoice_march.pdf")]
    ∧ fs_lookup (DOWNLOADS_DIR home0 /: "Invoices" /: "invoice_march.pdf") (fs st')
      = Some (File "old invoice")
    ∧ fs_lookup (DOWNLOADS_DIR home0 /: "invoice_march.pdf") (fs st')
      = Some (File "new invoice").
Proof.
  destruct (existing_target_is_kept (shutil_move_tree no_faults) home0
              (State disk_three []) "invoice_march.pdf")
    as (st' & Hrun & Hfs & Hout & Htarget & Hsource).
  - vm_compute. reflexivity.
  - vm_compute. reflexivity.
  - exists st'. split; [exact Hrun |]. split; [exact Hfs |].
    split; [exact Hout |]. simpl in Hfs. rewrite Hfs. split.
    + vm_compute. reflexivity.
    + vm_compute. reflexivity.
Defined.

(** When [shutil.move] raises, whatever it does, the iteration prints the
    error line and returns with the disk the move left; the folder made
    before the move left the source file as it was. *)
Lemma failed_move_returns
    (shutil_move : node → Path → Path → node * option exn)
    (home : Path) (st : state) (name : string) (fs1 fs2 : node) (e : exn) :
  is_file (fs st) (DOWNLOADS_DIR home /: name) = true →
  mkdir_exist_ok (fs st) (get_target_folder home (DOWNLOADS_DIR home /: name))
  = Return fs1 →
  path_exists fs1
    (get_target_folder home (DOWNLOADS_DIR home /: name) /: name) = false →
  shutil_move fs1 (DOWNLOADS_DIR home /: name)
    (get_target_folder home (DOWNLOADS_DIR home /: name) /: name)
  = (fs2, Some e) →
  process shutil_move home st name
  = Return (State fs2 (out st ++ [ErrorMoving name e]))
  ∧ fs_lookup (DOWNLOADS_DIR home /: name) fs1
    = fs_lookup (DOWNLOADS_DIR home /: name) (fs st).
Proof.
  intros Hfile Hmkdir Hfree Hmove. split.
  - unfold process. by rewrite Hfile, Hmkdir, path_name_div, Hfree, Hmove.
  - destruct (get_target_folder_div home (DOWNLOADS_DIR home /: name))
      as [folder Hfolder].
    eapply mkdir_exist_ok_frame; [exact Hmkdir | |].
    + rewrite Hfolder. unfold path_div. by rewrite !length_app.
    + unfold is_file in Hfile. destruct (fs_lookup _ (fs st)); [by eexists | done].
Qed.

(** C4, as the code has it. When [shutil.move] fails, whichever of its
    faults it is, the iteration prints the error line with the name of
    the file and the text of the exception and returns, and the source
    file is where it was, with the content it had.  What the move wrote
    at the target before it failed is not undone. *)
Theorem failed_move_is_reported
    (faults : Path → option move_fault)
    (home : Path) (st : state) (name : string) (fs1 fs2 : node) (e : exn) :
  let file := DOWNLOADS_DIR home /: name in
  let target_folder := get_target_folder home file in
  let target_path := target_folder /: name in
  is_file (fs st) file = true →
  mkdir_exist_ok (fs st) target_folder = Return fs1 →
  path_exists fs1 target_path = false →
  shutil_move_tree faults fs1 file target_path = (fs2, Some e) →
  process (shutil_move_tree faults) home st name
  = Return (State fs2 (out st ++ [ErrorMoving name e]))
  ∧ fs_lookup file fs2 = fs_lookup file (fs st)
  ∧ is_file fs2 file = true.
Proof.
  cbv zeta. intros Hfile Hmkdir Hfree Hmove.
  destruct (failed_move_returns _ _ _ _ _ _ _ Hfile Hmkdir Hfree Hmove)
    as [Hrun Hframe].
  split; [done |].
  assert (fs_lookup (DOWNLOADS_DIR home /: name) fs2
          = fs_lookup (DOWNLOADS_DIR home /: name) fs1) as Hsource.
  { destruct (get_target_folder_div home (DOWNLOADS_DIR home /: name))
      as [folder Hfolder].
    rewrite Hfolder in *. unfold shutil_move_tree in Hmove.
    destruct (fs_lookup (DOWNLOADS_DIR home /: name) fs1) as [n|] eqn:Hn;
      [| by injection Hmove as <- _].
    destruct (faults _) as [[e1|e1]|]; [by injection Hmove as <- _ | | done].
    injection Hmove as <- _. rewrite <- Hn.
    assert (name ≠ folder) as Hne.
    { intros ->. apply mkdir_exist_ok_is_dir in Hmkdir.
      unfold is_file in Hfile. unfold is_dir in Hmkdir.
      rewrite <- Hframe in Hfile. rewrite Hn in Hmkdir.
      by destruct n. }
    unfold path_div. rewrite <- !app_assoc.
    by apply fs_lookup_insert_diverge. }
  split; [congruence |]. unfold is_file in *. by rewrite Hsource, Hframe.
Qed.

Lemma failed_move_is_reported_witness :
  process (shutil_move_tree photo_unlink_fails) home0 (State disk_three [])
    "photo.png"
  = Return (State (fs_insert (DOWNLOADS_DIR home0 /: "Images" /: "photo.png")
                     (File "pixels") disk_three)
              [ErrorMoving "photo.png"
                 (PermissionError (DOWNLOADS_DIR home0 /: "photo.png"))])
  ∧ fs_lookup (DOWNLOADS_DIR home0 /: "photo.png")
      (fs_insert (DOWNLOADS_DIR home0 /: "Images" /: "photo.png")
         (File "pixels") disk_three)
    = Some (File "pixels").
Proof.
  destruct (failed_move_is_reported photo_unlink_fails home0
              (State disk_three []) "photo.png" disk_three
              (fs_insert (DOWNLOADS_DIR home0 /: "Images" /: "photo.png")
                 (File "pixels") disk_three)
              (PermissionError (DOWNLOADS_DIR home0 /: "photo.png")))
    as (Hrun & Hsource & _).
  - vm_compute. reflexivity.
  - vm_compute. reflexivity.
  - vm_compute. reflexivity.
  - vm_compute. reflexivity.
  - split; [exact Hrun |]. rewrite Hsource. vm_compute. reflexivity.
Defined.

(** C4 as stated fails where [shutil.move] raises after it has written
    the target: the error line is printed and the source file is in
    place, but the copy at the target, which did not exist before, stays. *)
Lemma failed_move_leaves_partial_copy :
  let file := DOWNLOADS_DIR home0 /: "photo.png" in
  let target_path := DOWNLOADS_DIR home0 /: "Images" /: "photo.png" in
  let r := organize_downloads listdir (shutil_move_tree photo_unlink_fails)
             home0 disk_three in
  path_exists disk_three target_path = false
  ∧ r.2 = None
  ∧ ErrorMoving "photo.png" (PermissionError file) ∈ out r.1
  ∧ fs_lookup file (fs r.1) = Some (File "pixels")
  ∧ fs_lookup target_path (fs r.1) = Some (File "pixels").
Proof.
  vm_compute. repeat split. do 3 apply list_elem_of_further.
  apply list_elem_of_here.
Qed.

(** A conflict and a failed move do not stop the loop: whatever was
    listed before the file and whatever comes after it, the loop prints
    the line of the outcome and goes on with the rest of the listing. *)
Theorem per_file_errors_do_not_abort
    (shutil_move : node → Path → Path → node * option exn)
    (home : Path) (before after : list string) (name : string)
    (st st1 : state) (fs1 : node) :
  let file := DOWNLOADS_DIR home /: name in
  let target_folder := get_target_folder home file in
  let target_path := target_folder /: name in
  loop shutil_move home before st = (st1, None) →
  is_file (fs st1) file = true →
  mkdir_exist_ok (fs st1) target_folder = Return fs1 →
  (path_exists fs1 target_path = true →
   loop shutil_move home (before ++ name :: after) st
   = loop shutil_move home after
       (State fs1 (out st1 ++ [FileAlreadyExists target_path])))
  ∧ (∀ fs2 e,
       path_exists fs1 target_path = false →
       shutil_move fs1 file target_path = (fs2, Some e) →
       loop shutil_move home (before ++ name :: after) st
       = loop shutil_move home after
           (State fs2 (out st1 ++ [ErrorMoving name e]))).
Proof.
  cbv zeta. intros Hbefore Hfile Hmkdir.
  rewrite loop_app, Hbefore. cbn [loop]. unfold process.
  rewrite Hfile, Hmkdir, path_name_div. split.
  - by intros ->.
  - intros fs2 e -> Hmove. by rewrite Hmove.
Qed.

Lemma per_file_errors_do_not_abort_witness :
  let r := loop (shutil_move_tree photo_unlink_fails) home0
             ["invoice_march.pdf"; "photo.png"; "notes.xyz"]
             (State disk_three []) in
  r.2 = None
  ∧ out r.1 =
    [ FileAlreadyExists (DOWNLOADS_DIR home0 /: "Invoices" /: "invoice_march.pdf");
      ErrorMoving "photo.png" (PermissionError (DOWNLOADS_DIR home0 /: "photo.png"));
      Moved "notes.xyz" "Misc" ].
Proof.
  destruct (per_file_errors_do_not_abort (shutil_move_tree photo_unlink_fails)
              home0 [] ["photo.png"; "notes.xyz"] "invoice_march.pdf"
              (State disk_three []) (State disk_three []) disk_three)
    as [Hconflict _].
  - reflexivity.
  - vm_compute. reflexivity.
  - vm_compute. reflexivity.
  - cbv zeta. cbn [app] in Hconflict.
    rewrite Hconflict; [| vm_compute; reflexivity].
    vm_compute. split; reflexivity.
Defined.

(** C5 fails on the code. The failure of [mkdir] is a per-file error
    too, and it is raised outside the [try]: with a regular file named
    [AI] listed before [photo.png], whatever [shutil.move] would do, the
    run ends with the [FileExistsError] of [mkdir] after the header, no
    line is printed for [AI], and [photo.png] is never processed. *)
Theorem mkdir_failure_aborts_the_batch
    (shutil_move : node → Path → Path → node * option exn) :
  listdir disk_file_named_ai (DOWNLOADS_DIR home0) = Return ["AI"; "photo.png"]
  ∧ get_target_folder home0 (DOWNLOADS_DIR home0 /: "AI")
    = DOWNLOADS_DIR home0 /: "AI"
  ∧ organize_downloads listdir shutil_move home0 disk_file_named_ai
    = (State disk_file_named_ai [Organizing (DOWNLOADS_DIR home0)],
       Some (FileExistsError (DOWNLOADS_DIR home0 /: "AI")))
  ∧ is_file disk_file_named_ai (DOWNLOADS_DIR home0 /: "photo.png") = true
  ∧ get_target_folder home0 (DOWNLOADS_DIR home0 /: "photo.png")
    = DOWNLOADS_DIR home0 /: "Images".
Proof. vm_compute. done. Qed.



(** C7. When the listing of the downloads directory raises, the run ends
    with that exception after the header line: the disk is the one it
    started on, and [shutil.move] has no part in the result. *)
Theorem enumeration_failure_aborts
    (os_listdir : node → Path → outcome (list string))
    (shutil_move : node → Path → Path → node * option exn)
    (home : Path) (fs0 : node) (e : exn) :
  os_listdir fs0 (DOWNLOADS_DIR home) = Raise e →
  organize_downloads os_listdir shutil_move home fs0
  = (State fs0 [Organizing (DOWNLOADS_DIR home)], Some e).
Proof. unfold organize_downloads. by intros ->. Qed.

Lemma enumeration_failure_aborts_witness :
  organize_downloads listdir (shutil_move_tree no_faults) home0
    disk_without_downloads
  = (State disk_without_downloads [Organizing (DOWNLOADS_DIR home0)],
     Some (FileNotFoundError (DOWNLOADS_DIR home0))).
Proof.
  apply (enumeration_failure_aborts listdir (shutil_move_tree no_faults) home0
           disk_without_downloads (FileNotFoundError (DOWNLOADS_DIR home0))).
  vm_compute. reflexivity.
Defined.

(** * Further properties of the classifier *)

Module PySuffixFacts.
Import PyStr.

#[local] Arguments String.append : simpl nomatch.

Lemma lower_ascii_eqb_dot (a : ascii) :
  Ascii.eqb (lower_ascii a) "." = Ascii.eqb a ".".
Proof. destruct a as [[] [] [] [] [] [] [] []]; reflexivity. Qed.

Lemma rfind_lower (s : string) : rfind "." (lower s) = rfind "." s.
Proof.
  induction s as [|a s IH]; simpl; [done |].
  by rewrite IH, lower_ascii_eqb_dot.
Qed.

Lemma length_lower (s : string) : String.length (lower s) = String.length s.
Proof. induction s as [|a s IH]; simpl; [done | by rewrite IH]. Qed.

Lemma drop_lower (i : nat) (s : string) : drop i (lower s) = lower (drop i s).
Proof.
  revert s. induction i as [|i IH]; intros [|a s]; simpl; auto.
Qed.

Lemma length_app (a b : string) :
  String.length (a +:+ b) = String.length a + String.length b.
Proof. induction a as [|x a IH]; simpl; [done | by rewrite IH]. Qed.

Lemma drop_app_length (a b : string) : drop (String.length a) (a +:+ b) = b.
Proof. induction a as [|x a IH]; simpl; [done | apply IH]. Qed.

Lemma rfind_app (c : ascii) (a b : string) :
  rfind c (a +:+ b) =
  match rfind c b with
  | Some i => Some (String.length a + i)
  | None => rfind c a
  end.
Proof.
  induction a as [|x a IH]; simpl.
  - by destruct (rfind c b).
  - rewrite IH. by destruct (rfind c b).
Qed.

(** [c] is not in [s]. *)
Lemma rfind_None (c : ascii) (s : string) :
  rfind c s = None ↔ contains (String c "") s = false.
Proof.
  induction s as [|a s IH]; cbn [rfind contains String.prefix]; [done |].
  rewrite orb_false_iff, <- IH.
  destruct (rfind c s) as [i|].
  { split; [done | by intros [_ ?]]. }
  destruct (ascii_dec c a) as [->|Hne].
  - rewrite Ascii.eqb_refl. destruct s; split; (done || by intros [? _]).
  - destruct (Ascii.eqb_spec a c) as [->|_]; [done |]. by split.
Qed.

Lemma lstrip_absent (c : ascii) (s : string) :
  rfind c s = None → lstrip c s = s.
Proof.
  destruct s as [|a s]; simpl; [done |].
  destruct (rfind c s); [done |]. by destruct (Ascii.eqb a c).
Qed.

Lemma rstrip_absent (c : ascii) (s : string) :
  rfind c s = None → rstrip c s = s.
Proof.
  induction s as [|a s IH]; simpl; [done |].
  destruct (rfind c s); [done |]. rewrite IH by done.
  destruct (Ascii.eqb a c); [done |]. by destruct s.
Qed.

Lemma strip_absent (c : ascii) (s : string) :
  rfind c s = None → strip c s = s.
Proof.
  intros H. unfold strip. by rewrite lstrip_absent, rstrip_absent.
Qed.

End PySuffixFacts.

(** Lower-casing commutes with taking the suffix. *)
Lemma path_suffix_lower (p : Path) :
  PyStr.lower (path_suffix p) = path_suffix [PyStr.lower (path_name p)].
Proof.
  unfold path_suffix. change (path_name [?s]) with s.
  rewrite PySuffixFacts.rfind_lower, PySuffixFacts.length_lower.
  destruct (PyStr.rfind _ _) as [i|]; [| done].
  destruct (_ && _); [| done]. by rewrite PySuffixFacts.drop_lower.
Qed.

(** The suffix of [stem.e], and of the three shapes that have none. *)
Lemma path_suffix_last (dir : Path) (stem e : string) :
  stem ≠ "" → e ≠ "" → PyStr.contains "." e = false →
  path_suffix (dir /: (stem +:+ "." +:+ e)) = "." +:+ e.
Proof.
  intros Hstem He Hdot. unfold path_suffix. rewrite path_name_div.
  apply (PySuffixFacts.rfind_None "." e) in Hdot.
  change ("." +:+ e) with (String "." e).
  rewrite PySuffixFacts.rfind_app. cbn [PyStr.rfind]. rewrite Hdot.
  cbn [Ascii.eqb Bool.eqb]. rewrite PySuffixFacts.length_app, Nat.add_0_r.
  rewrite PySuffixFacts.drop_app_length. cbn [String.length].
  destruct stem; [done |]. destruct e; [done |]. cbn [String.length].
  replace (_ && _) with true; [done |].
  symmetry. apply andb_true_iff. split; apply Nat.ltb_lt; lia.
Qed.

Lemma path_suffix_none (dir : Path) (name : string) :
  PyStr.contains "." name = false
  ∨ (∃ rest, name = "." +:+ rest ∧ PyStr.contains "." rest = false)
  ∨ (∃ stem, name = stem +:+ ".") →
  path_suffix (dir /: name) = "".
Proof.
  unfold path_suffix. rewrite path_name_div.
  intros [Hdot | [(rest & -> & Hdot) | (stem & ->)]].
  - apply (PySuffixFacts.rfind_None "." name) in Hdot. by rewrite Hdot.
  - apply (PySuffixFacts.rfind_None "." rest) in Hdot.
    change ("." +:+ rest) with (String "." rest).
    cbn [PyStr.rfind]. by rewrite Hdot.
  - rewrite PySuffixFacts.rfind_app. cbn [PyStr.rfind Ascii.eqb Bool.eqb].
    rewrite PySuffixFacts.length_app, Nat.add_0_r. cbn [String.length].
    replace (_ <? _ - 1)%nat with false; [by rewrite andb_false_r |].
    symmetry. apply Nat.ltb_ge. lia.
Qed.

(** X1. The folder returned is always a direct child of the downloads
    directory, named by a folder of the keyword table, by a folder of the
    extension table or ["Misc"]. *)
Theorem target_folder_is_a_category (home file : Path) :
  ∃ folder, get_target_folder home file = DOWNLOADS_DIR home /: folder
    ∧ folder ∈ (KEYWORD_FOLDERS.*2 ++ (map_to_list CATEGORY_MAP).*2 ++ ["Misc"])%list.
Proof.
  unfold get_target_folder, classify.
  destruct (scan_keywords _ _) as [folder|] eqn:Hscan.
  - exists folder. split; [done |].
    apply scan_keywords_Some in Hscan as (i & kw & Hi & _).
    apply elem_of_app. left. apply list_elem_of_fmap. exists (kw, folder).
    split; [done | by eapply list_elem_of_lookup_2].
  - destruct (CATEGORY_MAP !! ext file) as [folder|] eqn:Hext.
    + exists folder. split; [done |].
      apply elem_of_app. right. apply elem_of_app. left.
      apply list_elem_of_fmap. exists (ext file, folder).
      split; [done | by apply elem_of_map_to_list].
    + exists "Misc". split; [done |].
      apply elem_of_app. right. apply elem_of_app. right. apply list_elem_of_here.
Qed.

(** X2. Two names that differ only in the case of the letters [A]..[Z]
    and [a]..[z], which is what [lower_name] compares, have the same
    extension key and the same folder, in whatever directory the files
    are and whatever the rule tables. *)
Theorem classification_ignores_case (keyword_folders : list (string * string))
    (category_map : gmap string string) (home file1 file2 : Path) :
  lower_name file1 = lower_name file2 →
  ext file1 = ext file2
  ∧ get_target_folder home file1 = get_target_folder home file2
  ∧ classify keyword_folders category_map (DOWNLOADS_DIR home) file1
    = classify keyword_folders category_map (DOWNLOADS_DIR home) file2.
Proof.
  intros Hname.
  assert (ext file1 = ext file2) as Hext.
  { unfold ext. rewrite !path_suffix_lower. by fold (lower_name file1);
      fold (lower_name file2); rewrite Hname. }
  split; [done |]. unfold get_target_folder, classify. by rewrite Hname, Hext.
Qed.

Lemma classification_ignores_case_witness :
  get_target_folder home0 ["tmp"; "Holiday.Photo.PNG"]
  = get_target_folder home0 (DOWNLOADS_DIR home0 /: "holiday.photo.png").
Proof.
  apply (classification_ignores_case KEYWORD_FOLDERS CATEGORY_MAP home0
           ["tmp"; "Holiday.Photo.PNG"]
           (DOWNLOADS_DIR home0 /: "holiday.photo.png")).
  vm_compute. reflexivity.
Defined.

(** X3. Only what follows the last dot is the extension: for a name
    [stem.e] with [stem] and [e] not empty and no dot in [e], the key
    looked up in the extension table is [e] in lower case, whatever dots
    [stem] has; without a keyword in the name the folder is the one
    that key has in the table, or ["Misc"]. *)
Theorem extension_is_the_last_suffix (home : Path) (stem e : string) :
  stem ≠ "" → e ≠ "" → PyStr.contains "." e = false →
  let file := DOWNLOADS_DIR home /: (stem +:+ "." +:+ e) in
  ext file = PyStr.lower e
  ∧ (Forall (λ rule, rule_matches file rule = false) KEYWORD_FOLDERS →
     get_target_folder home file
     = DOWNLOADS_DIR home /: default "Misc" (CATEGORY_MAP !! PyStr.lower e)).
Proof.
  intros Hstem He Hdot file.
  assert (ext file = PyStr.lower e) as Hext.
  { unfold ext, file. rewrite path_suffix_last by done.
    change ("." +:+ e) with (String "." e).
    apply (PySuffixFacts.rfind_None "." e) in Hdot.
    rewrite <- PySuffixFacts.rfind_lower in Hdot.
    cbn [PyStr.lower]. unfold PyStr.strip.
    change (PyStr.lower_ascii ".") with "."%char.
    cbn [PyStr.lstrip Ascii.eqb Bool.eqb].
    by rewrite PySuffixFacts.lstrip_absent, PySuffixFacts.rstrip_absent. }
  split; [done |]. intros Hnone. unfold get_target_folder.
  rewrite classify_extension by (by apply scan_keywords_None).
  by rewrite Hext.
Qed.

Lemma extension_is_the_last_suffix_witness :
  ext (DOWNLOADS_DIR home0 /: "backup.tar.ZIP") = "zip"
  ∧ get_target_folder home0 (DOWNLOADS_DIR home0 /: "backup.tar.ZIP")
    = DOWNLOADS_DIR home0 /: "Archives".
Proof.
  destruct (extension_is_the_last_suffix home0 "backup.tar" "ZIP")
    as [Hext Hfolder].
  - discriminate.
  - discriminate.
  - vm_compute. reflexivity.
  - split; [exact Hext |]. refine (eq_trans (Hfolder _) _).
    + repeat constructor.
    + vm_compute. reflexivity.
Defined.

(** X4. A name without a dot, a name whose only dot is its first
    character and a name that ends with a dot have no extension: the key
    looked up is the empty string, which the table lacks, so without a
    keyword in the name the folder is ["Misc"]. *)
Theorem no_extension_goes_to_misc (home : Path) (name : string) :
  PyStr.contains "." name = false
  ∨ (∃ rest, name = "." +:+ rest ∧ PyStr.contains "." rest = false)
  ∨ (∃ stem, name = stem +:+ ".") →
  let file := DOWNLOADS_DIR home /: name in
  ext file = ""
  ∧ (Forall (λ rule, rule_matches file rule = false) KEYWORD_FOLDERS →
     get_target_folder home file = DOWNLOADS_DIR home /: "Misc").
Proof.
  intros Hshape file.
  assert (ext file = "") as Hext.
  { unfold ext, file. by rewrite path_suffix_none. }
  split; [done |]. intros Hnone. unfold get_target_folder.
  rewrite classify_extension by (by apply scan_keywords_None).
  by rewrite Hext.
Qed.

Lemma no_extension_goes_to_misc_witness :
  get_target_folder home0 (DOWNLOADS_DIR home0 /: ".zip")
  = DOWNLOADS_DIR home0 /: "Misc".
Proof.
  destruct (no_extension_goes_to_misc home0 ".zip") as [_ Hfolder].
  - right. left. exists "zip". split; [reflexivity | vm_compute; reflexivity].
  - apply Hfolder. repeat constructor.
Defined.

(** * Further properties of the run *)

(** X5. [mkdir(exist_ok=True)] does its work once: when it returns,
    the folder is a directory, and a second call for it returns without
    changing the disk. *)
Theorem mkdir_exist_ok_idempotent (fs fs1 : node) (p : Path) :
  mkdir_exist_ok fs p = Return fs1 →
  is_dir fs1 p = true ∧ mkdir_exist_ok fs1 p = Return fs1.
Proof.
  intros Hdir%mkdir_exist_ok_is_dir. split; [done |].
  unfold mkdir_exist_ok, is_dir in *.
  by destruct (fs_lookup p fs1) as [[|es]|].
Qed.

Lemma mkdir_exist_ok_idempotent_witness :
  is_dir (fs_insert (DOWNLOADS_DIR home0 /: "Misc") (Dir ∅) disk_three)
    (DOWNLOADS_DIR home0 /: "Misc") = true
  ∧ mkdir_exist_ok (fs_insert (DOWNLOADS_DIR home0 /: "Misc") (Dir ∅) disk_three)
      (DOWNLOADS_DIR home0 /: "Misc")
    = Return (fs_insert (DOWNLOADS_DIR home0 /: "Misc") (Dir ∅) disk_three).
Proof.
  apply (mkdir_exist_ok_idempotent disk_three).
  vm_compute. reflexivity.
Defined.

(** [mkdir] raises where a regular file stands. *)
Lemma mkdir_exist_ok_at_file (fs : node) (p : Path) :
  is_file fs p = true → mkdir_exist_ok fs p = Raise (FileExistsError p).
Proof.
  unfold is_file, mkdir_exist_ok. by destruct (fs_lookup p fs) as [[|es]|].
Qed.

(** X7. When the loop meets a regular file whose category folder is a
    regular file it stops there: the state is the one reached before the
    entry, nothing is printed for it, and the entries listed after it are
    not looked at. *)
Theorem mkdir_failure_stops_the_loop
    (shutil_move : node → Path → Path → node * option exn)
    (home : Path) (before after : list string) (name : string)
    (st st1 : state) :
  let file := DOWNLOADS_DIR home /: name in
  let target_folder := get_target_folder home file in
  loop shutil_move home before st = (st1, None) →
  is_file (fs st1) file = true →
  is_file (fs st1) target_folder = true →
  loop shutil_move home (before ++ name :: after) st
  = (st1, Some (FileExistsError target_folder)).
Proof.
  cbv zeta. intros Hbefore Hfile Hfolder.
  rewrite loop_app, Hbefore. cbn [loop]. unfold process.
  by rewrite Hfile, mkdir_exist_ok_at_file.
Qed.

Lemma mkdir_failure_stops_the_loop_witness :
  loop (shutil_move_tree no_faults) home0 ["AI"; "photo.png"]
    (State disk_file_named_ai [])
  = (State disk_file_named_ai [],
     Some (FileExistsError (DOWNLOADS_DIR home0 /: "AI"))).
Proof.
  apply (mkdir_failure_stops_the_loop (shutil_move_tree no_faults) home0
           [] ["photo.png"] "AI" (State disk_file_named_ai [])
           (State disk_file_named_ai [])).
  - reflexivity.
  - vm_compute. reflexivity.
  - vm_compute. reflexivity.
Defined.



(** X9. When no listed entry is a regular file, the run prints the
    header and does nothing else: no folder is made, nothing is moved. *)
Theorem nothing_to_sort
    (os_listdir : node → Path → outcome (list string))
    (shutil_move : node → Path → Path → node * option exn)
    (home : Path) (fs0 : node) (names : list string) :
  os_listdir fs0 (DOWNLOADS_DIR home) = Return names →
  Forall (λ name, is_file fs0 (DOWNLOADS_DIR home /: name) = false) names →
  organize_downloads os_listdir shutil_move home fs0
  = (State fs0 [Organizing (DOWNLOADS_DIR home)], None).
Proof.
  unfold organize_downloads. intros -> Hnames. unfold say. simpl.
  induction Hnames as [|name names Hname _ IH]; [done |].
  cbn [loop]. unfold process. cbn [fs]. by rewrite Hname.
Qed.

Lemma nothing_to_sort_witness :
  organize_downloads listdir (shutil_move_tree no_faults) home0 disk_only_folders
  = (State disk_only_folders [Organizing (DOWNLOADS_DIR home0)], None).
Proof.
  apply (nothing_to_sort listdir (shutil_move_tree no_faults) home0
           disk_only_folders ["Images"; "Invoices"]).
  - vm_compute. reflexivity.
  - repeat constructor.
Defined.

(** X10. On the tree, a regular file whose category folder is free of a
    regular file and whose target path is free is moved by [shutil.move]
    when nothing fails: the line printed gives its name and the folder,
    the target path then holds the file with its content, and the file is
    no longer in the downloads directory. *)
Theorem file_is_moved_on_tree (home : Path) (st : state) (name data : string) :
  let file := DOWNLOADS_DIR home /: name in
  let target_folder := get_target_folder home file in
  let target_path := target_folder /: name in
  fs_lookup file (fs st) = Some (File data) →
  is_file (fs st) target_folder = false →
  path_exists (fs st) target_path = false →
  ∃ st', process (shutil_move_tree no_faults) home st name = Return st'
    ∧ out st' = (out st ++ [Moved name (path_name target_folder)])%list
    ∧ fs_lookup target_path (fs st') = Some (File data)
    ∧ fs_lookup file (fs st') = None.
Proof.
  cbv zeta. intros Hfile Hfolder Hfree.
  destruct (get_target_folder_div home (DOWNLOADS_DIR home /: name))
    as [folder Hlabel].
  set (file := DOWNLOADS_DIR home /: name) in *.
  set (target_folder := get_target_folder home file) in *.
  assert (∃ es, fs_lookup (DOWNLOADS_DIR home) (fs st) = Some (Dir es)) as [es0 Hdir].
  { apply fs_lookup_div_Some in Hfile as (es & ? & _). by exists es. }
  assert (∃ fs1, mkdir_exist_ok (fs st) target_folder = Return fs1
            ∧ path_exists fs1 (target_folder /: name) = false) as (fs1 & Hmk & Hfree1).
  { unfold mkdir_exist_ok, is_file in *.
    destruct (fs_lookup target_folder (fs st)) as [[|es]|] eqn:Hp; [done | by eexists |].
    rewrite Hlabel. unfold path_div at 1. rewrite removelast_last, Hdir.
    eexists. split; [done |]. unfold path_exists, path_div at 1.
    rewrite fs_lookup_app, (fs_lookup_insert_eq (DOWNLOADS_DIR home) folder).
    - done.
    - unfold is_dir. by rewrite Hdir. }
  assert (fs_lookup file fs1 = Some (File data)) as Hfile1.
  { rewrite <- Hfile. eapply mkdir_exist_ok_frame; [exact Hmk | | by rewrite Hfile].
    rewrite Hlabel. unfold file, path_div. by rewrite !length_app. }
  pose proof (mkdir_exist_ok_is_dir _ _ _ Hmk) as Hisdir.
  assert (file ≠ target_folder) as Hne.
  { intros Heq. unfold is_dir in Hisdir. by rewrite <- Heq, Hfile1 in Hisdir. }
  assert (fs_lookup file (fs_delete file fs1) = None) as Hgone
    by apply fs_lookup_delete_eq.
  exists (State (fs_insert (target_folder /: name) (File data) (fs_delete file fs1))
            (out st ++ [Moved name (path_name target_folder)])).
  split; [| split; [done | split]].
  - assert (path_name file = name) as Hname by apply path_name_div.
    unfold process. fold file. unfold is_file. rewrite Hfile. fold target_folder.
    rewrite Hmk, !Hname, Hfree1. unfold shutil_move_tree, no_faults.
    by rewrite Hfile1.
  - cbn [fs]. apply fs_lookup_insert_eq. unfold is_dir in *.
    rewrite fs_lookup_delete_ne; [done | | done].
    rewrite Hlabel. unfold file, path_div. by rewrite !length_app.
  - cbn [fs]. apply fs_lookup_insert_shorter; [| done].
    rewrite Hlabel. unfold file, path_div. rewrite !length_app. simpl. lia.
Qed.

Lemma file_is_moved_on_tree_witness :
  ∃ st', process (shutil_move_tree no_faults) home0 (State disk_three [])
           "notes.xyz" = Return st'
    ∧ out st' = [Moved "notes.xyz" "Misc"]
    ∧ fs_lookup (DOWNLOADS_DIR home0 /: "Misc" /: "notes.xyz") (fs st')
      = Some (File "notes")
    ∧ fs_lookup (DOWNLOADS_DIR home0 /: "notes.xyz") (fs st') = None.
Proof.
  apply (file_is_moved_on_tree home0 (State disk_three []) "notes.xyz" "notes").
  - vm_compute. reflexivity.
  - vm_compute. reflexivity.
  - vm_compute. reflexivity.
Defined.
